(** * DeepForest: the [deepforest] session wrapper

    A shallow embedding of [deepforest/deepforest.py]: the class [deepforest]
    with its constructor and its three public methods [train], [use_release]
    and [predict_image].

    The class is a thin wrapper: every computation is delegated to
    collaborators ([utilities], [predict], [retinanet_train], keras-retinanet's
    [convert_model], [matplotlib.pyplot]).  Their code is not part of the
    modelled file, so they are the fields of a type class and every theorem
    holds for all of them.  What the wrapper itself does (which attribute it
    tests, which attribute it assigns, in which order it calls out, what it
    returns) is modelled line by line. *)

From Stdlib Require Import String List Bool Arith Lia.
Import ListNotations.
Open Scope string_scope.
Open Scope list_scope.

(** ** Outcomes and the state-and-exception monad *)

(** A filesystem path, as the Python strings the wrapper forwards. *)
Definition Path : Type := string.

(** The outcome of a call: a returned value or a raised exception. *)
Inductive Outcome (X A : Type) : Type :=
| Ok (a : A)
| Raise (x : X).
Arguments Ok {X A} a.
Arguments Raise {X A} x.

(** Python exceptions seen by the caller of the wrapper, told apart by where
    they were raised: the [ValueError] of the wrapper's own [raise] statement,
    and whatever came out of a collaborator (of any Python class, [E] says
    which), which the wrapper neither catches nor wraps. *)
Inductive exn (E : Type) : Type :=
| ValueError (msg : string)
| Delegated (e : E).
Arguments ValueError {E} msg.
Arguments Delegated {E} e.

(** An exception leaving a collaborator passes through the wrapper. *)
Definition delegated {E A} (r : Outcome E A) : Outcome (exn E) A :=
  match r with
  | Ok a => Ok a
  | Raise e => Raise (Delegated e)
  end.

(** A computation over a mutable state [S].  The state survives a raised
    exception: an attribute assigned before the [raise] stays assigned. *)
Definition M (X S A : Type) : Type := S -> Outcome X A * S.

Definition ret {X S A} (a : A) : M X S A := fun s => (Ok a, s).

Definition raise {X S A} (x : X) : M X S A := fun s => (Raise x, s).

Definition bind {X S A B} (m : M X S A) (k : A -> M X S B) : M X S B :=
  fun s =>
    match m s with
    | (Ok a, s') => k a s'
    | (Raise x, s') => (Raise x, s')
    end.

Notation "x <- m ;; k" := (bind m (fun x => k))
  (at level 61, m at next level, right associativity).
Notation "m ;;; k" := (bind m (fun _ => k))
  (at level 61, right associativity).

(** ** The collaborators *)

(** The modules the wrapper imports.  The carrier types are the opaque handles
    the wrapper passes around without looking inside; [World] is everything
    outside the session (disk, network, display, random state), so a
    collaborator may read it, change it and fail.

    Result types follow the component contracts of the spec: the
    configuration loader returns an options value, the model resolver a model
    handle or the local path of the release, the training entry point a
    trained model with its two variants.  Model arguments are [option Model]:
    the wrapper hands over whatever the attribute holds, and that may be
    Python's [None]. *)
Class Collaborators : Type := {
  World : Type;
  Config : Type;
  Model : Type;
  Array : Type;
  Args : Type;
  Comet : Type;
  ExtError : Type;
  (* utilities.read_config() *)
  utilities_read_config : World -> Outcome ExtError Config * World;
  (* utilities.read_model(model_path, config) *)
  utilities_read_model :
    Path -> Config -> World -> Outcome ExtError Model * World;
  (* utilities.use_release(): the local path of the release artifact *)
  utilities_use_release : World -> Outcome ExtError Path * World;
  (* utilities.format_args(annotations, config, images_per_epoch) *)
  utilities_format_args :
    Path -> Config -> option nat -> World -> Outcome ExtError Args * World;
  (* print("Training retinanet with the following args {}".format(arg_list)) *)
  print_args : Args -> World -> Outcome ExtError unit * World;
  (* retinanet_train(args, input_type, list_of_tfrecords, comet_experiment) *)
  retinanet_train :
    Args -> string -> option (list Path) -> option Comet ->
    World -> Outcome ExtError (Model * Model * Model) * World;
  (* keras_retinanet.models.convert_model(model) *)
  convert_model : option Model -> World -> Outcome ExtError Model * World;
  (* predict.predict_image(model, image_path, return_plot) *)
  predict_predict_image :
    option Model -> Path -> bool -> World -> Outcome ExtError Array * World;
  (* image[:,:,::-1]: a view with the channel axis reversed; numpy raises
     when the array has fewer than three axes *)
  reverse_channels : Array -> Outcome ExtError Array;
  (* plt.imshow(image) *)
  plt_imshow : Array -> World -> Outcome ExtError unit * World;
  (* plt.show() *)
  plt_show : World -> Outcome ExtError unit * World
}.

Section Wrapper.

Context {C : Collaborators}.

(** ** The session object *)

(** The attributes of a [deepforest] instance.  [saved_model] and [model] hold
    Python's [None] when [None] here.  [prediction_model] and [training_model]
    are not assigned by the constructor: [None] there stands for an attribute
    that does not exist yet. *)
Record Session : Type := mkSession {
  saved_model : option Path;
  config : Config;
  model : option Model;
  prediction_model : option Model;
  training_model : option Model
}.

(** One call out of the wrapper, with the arguments it was given. *)
Inductive Call : Type :=
| CReadConfig
| CReadModel (model_path : Path) (cfg : Config)
| CUseRelease
| CFormatArgs (annotations : Path) (cfg : Config) (images_per_epoch : option nat)
| CPrint (arg_list : Args)
| CRetinanetTrain (arg_list : Args) (input_type : string)
    (list_of_tfrecords : option (list Path)) (comet_experiment : option Comet)
| CConvertModel (m : option Model)
| CPredictImage (m : option Model) (image_path : Path) (return_plot : bool)
| CImshow (image : Array)
| CShow.

(** Everything outside the session: the world, and the log of the calls made
    so far (oldest first).  The log is specification state: it lets a theorem
    say which collaborators ran, and in which order. *)
Record Ext : Type := mkExt {
  world : World;
  trace : list Call
}.

(** A method runs on the session and on the outside. *)
Record State : Type := mkState {
  self : Session;
  ext : Ext
}.

(** Calling a collaborator: log the call, run it on the current world. *)
Definition call {A} (c : Call) (f : World -> Outcome ExtError A * World)
  : M (exn ExtError) Ext A :=
  fun e =>
    let (r, w') := f (world e) in
    (delegated r, {| world := w'; trace := trace e ++ [c] |}).

(** A call made from inside a method leaves the attributes alone. *)
Definition outside {A} (m : M (exn ExtError) Ext A)
  : M (exn ExtError) State A :=
  fun st =>
    let (r, e') := m (ext st) in
    (r, {| self := self st; ext := e' |}).

(** A step that computes without touching the world (numpy indexing). *)
Definition pure_step {S A} (r : Outcome ExtError A)
  : M (exn ExtError) S A :=
  fun s => (delegated r, s).

Definition get_self : M (exn ExtError) State Session :=
  fun st => (Ok (self st), st).

Definition set_self (f : Session -> Session) : M (exn ExtError) State unit :=
  fun st => (Ok tt, {| self := f (self st); ext := ext st |}).

(** Attribute assignments. *)
Definition set_saved_model (v : option Path) (s : Session) : Session :=
  {| saved_model := v; config := config s; model := model s;
     prediction_model := prediction_model s;
     training_model := training_model s |}.

Definition set_model (v : option Model) (s : Session) : Session :=
  {| saved_model := saved_model s; config := config s; model := v;
     prediction_model := prediction_model s;
     training_model := training_model s |}.

Definition set_prediction_model (v : option Model) (s : Session) : Session :=
  {| saved_model := saved_model s; config := config s; model := model s;
     prediction_model := v;
     training_model := training_model s |}.

Definition set_training_model (v : option Model) (s : Session) : Session :=
  {| saved_model := saved_model s; config := config s; model := model s;
     prediction_model := prediction_model s;
     training_model := v |}.

(** ** Python values returned by the methods *)

(** What a public method hands back to its caller.  A method whose body ends
    without a [return] statement returns [None]. *)
Inductive Value : Type :=
| VNone
| VModel (m : Model)
| VArray (a : Array)
| VTuple3 (a b c : Value).

(** ** The class [deepforest] *)

(** [deepforest.__init__(self, saved_model=None)], lines 26-36.  The object is
    only visible to the caller once the constructor has returned, so the
    constructor is a computation on the outside that yields the session. *)
Definition __init__ (saved_model_arg : option Path) : M (exn ExtError) Ext Session :=
  cfg <- call CReadConfig utilities_read_config ;;
  match saved_model_arg with
  | Some p =>
      m <- call (CReadModel p cfg) (utilities_read_model p cfg) ;;
      ret {| saved_model := Some p; config := cfg; model := Some m;
             prediction_model := None; training_model := None |}
  | None =>
      ret {| saved_model := None; config := cfg; model := None;
             prediction_model := None; training_model := None |}
  end.

(** [deepforest.train], lines 38-58.  The tuple returned by [retinanet_train]
    is unpacked into the three attributes; the body has no [return]. *)
Definition train (annotations : Path) (input_type : string)
    (list_of_tfrecords : option (list Path))
    (comet_experiment : option Comet) (images_per_epoch : option nat)
  : M (exn ExtError) State Value :=
  s <- get_self ;;
  arg_list <- outside (call (CFormatArgs annotations (config s) images_per_epoch)
                (utilities_format_args annotations (config s) images_per_epoch)) ;;
  outside (call (CPrint arg_list) (print_args arg_list)) ;;;
  r <- outside (call (CRetinanetTrain arg_list input_type list_of_tfrecords
                        comet_experiment)
         (retinanet_train arg_list input_type list_of_tfrecords
            comet_experiment)) ;;
  let '(m, pm, tm) := r in
  set_self (set_model (Some m)) ;;;
  set_self (set_prediction_model (Some pm)) ;;;
  set_self (set_training_model (Some tm)) ;;;
  ret VNone.

(** [deepforest.use_release], lines 60-71.  The path is stored before the
    model is read back from it; the body has no [return]. *)
Definition use_release : M (exn ExtError) State Value :=
  p <- outside (call CUseRelease utilities_use_release) ;;
  set_self (set_saved_model (Some p)) ;;;
  s <- get_self ;;
  m <- outside (call (CReadModel p (config s))
         (utilities_read_model p (config s))) ;;
  set_self (set_model (Some m)) ;;;
  ret VNone.

(** The message of the [ValueError] of line 86, character for character. *)
Definition no_weights_msg : string :=
  "Model currently has no weights, either train a new model using deepforest.train, loading existing model, or use prebuilt model (see deepforest.use_release()".

(** Lines 95-96: [plt.imshow(image[:,:,::-1])] then [plt.show()]. *)
Definition show_image (image : Array) : M (exn ExtError) Ext unit :=
  view <- pure_step (reverse_channels image) ;;
  call (CImshow view) (plt_imshow view) ;;;
  call CShow plt_show.

(** [deepforest.predict_image(self, image_path, return_plot=True, show=False)],
    lines 73-100.  The guard of line 85 tests [saved_model], the conversion of
    line 89 runs on every call that gets past it, and [return_plot] is passed
    on unchanged. *)
Definition predict_image (image_path : Path) (return_plot show : bool)
  : M (exn ExtError) State Value :=
  s <- get_self ;;
  match saved_model s with
  | None => raise (ValueError no_weights_msg)
  | Some _ =>
      pm <- outside (call (CConvertModel (model s)) (convert_model (model s))) ;;
      set_self (set_prediction_model (Some pm)) ;;;
      s1 <- get_self ;;
      if return_plot then
        image <- outside (call (CPredictImage (prediction_model s1) image_path
                                  return_plot)
                   (predict_predict_image (prediction_model s1) image_path
                      return_plot)) ;;
        (if show then outside (show_image image) else ret tt) ;;;
        ret (VArray image)
      else
        boxes <- outside (call (CPredictImage (prediction_model s1) image_path
                                  return_plot)
                   (predict_predict_image (prediction_model s1) image_path
                      return_plot)) ;;
        ret (VArray boxes)
  end.

(** ** Sequences of public operations *)

(** A call of one of the three public methods, with its arguments. *)
Inductive Op : Type :=
| OpTrain (annotations : Path) (input_type : string)
    (list_of_tfrecords : option (list Path))
    (comet_experiment : option Comet) (images_per_epoch : option nat)
| OpUseRelease
| OpPredictImage (image_path : Path) (return_plot show : bool).

Definition run_op (o : Op) : M (exn ExtError) State Value :=
  match o with
  | OpTrain a it tf ce ipe => train a it tf ce ipe
  | OpUseRelease => use_release
  | OpPredictImage p rp sh => predict_image p rp sh
  end.

(** A caller may catch an exception and go on using the session, so a
    sequence runs every operation, each from the state its predecessor left
    (whether it returned or raised). *)
Fixpoint run_ops (os : list Op) (st : State) : State :=
  match os with
  | [] => st
  | o :: os' => run_ops os' (snd (run_op o st))
  end.

(** The loading operation among the public methods. *)
Definition is_loading (o : Op) : bool :=
  match o with
  | OpUseRelease => true
  | _ => false
  end.

Definition no_loading (os : list Op) : bool :=
  forallb (fun o => negb (is_loading o)) os.

(** How often the configuration was read, from the log. *)
Definition is_read_config (c : Call) : bool :=
  match c with
  | CReadConfig => true
  | _ => false
  end.

Definition config_reads (t : list Call) : nat :=
  length (filter is_read_config t).

(** The calls that put an image on the screen. *)
Definition is_display (c : Call) : bool :=
  match c with
  | CImshow _ | CShow => true
  | _ => false
  end.

(** [mentions needle text]: [needle] occurs in [text]. *)
Definition mentions (needle text : string) : bool :=
  match index 0 needle text with
  | Some _ => true
  | None => false
  end.

(** ** Reading sessions and logs *)

(** An attribute that holds a value (not Python's [None], not unassigned). *)
Definition is_set {A} (o : option A) : bool :=
  match o with
  | Some _ => true
  | None => false
  end.

(** The display calls of a log, in order. *)
Definition display_calls (t : list Call) : list Call := filter is_display t.

(** The collaborators each public method calls, read off its body: [train]
    formats, prints and trains (lines 53-58), [use_release] resolves the
    release and reads the model (lines 67-71), [predict_image] converts,
    predicts and displays (lines 89-99). *)
Definition is_call_of (o : Op) (c : Call) : bool :=
  match o, c with
  | OpTrain _ _ _ _ _, CFormatArgs _ _ _ => true
  | OpTrain _ _ _ _ _, CPrint _ => true
  | OpTrain _ _ _ _ _, CRetinanetTrain _ _ _ _ => true
  | OpUseRelease, CUseRelease => true
  | OpUseRelease, CReadModel _ _ => true
  | OpPredictImage _ _ _, CConvertModel _ => true
  | OpPredictImage _ _ _, CPredictImage _ _ _ => true
  | OpPredictImage _ _ _, CImshow _ => true
  | OpPredictImage _ _ _, CShow => true
  | _, _ => false
  end.

End Wrapper.

Arguments Session : clear implicits.
Arguments State : clear implicits.
Arguments Ext : clear implicits.

(** ** A concrete set of collaborators

    Small stand-ins on which the model runs: models are named by strings, an
    array is either an image of a given height and width or a list of boxes,
    and the world is the list of images on disk together with the number of
    windows shown so far. *)
Module Demo.

Inductive array : Type :=
| Image (height width : nat)
| Boxes (n : nat).

Record env : Type := mkEnv {
  disk : list (Path * array);
  windows : nat
}.

Fixpoint lookup (p : Path) (d : list (Path * array)) : option array :=
  match d with
  | [] => None
  | (q, a) :: d' => if String.eqb p q then Some a else lookup p d'
  end.

Definition read_model (p : Path) (cfg : string) (w : env)
  : Outcome string string * env :=
  if String.eqb p "" then (Raise "OSError", w)
  else (Ok ("model:" ++ p)%string, w).

Definition convert (m : option string) (w : env)
  : Outcome string string * env :=
  match m with
  | Some name => (Ok (name ++ "+nms")%string, w)
  | None => (Raise "AttributeError", w)
  end.

Definition predict (m : option string) (p : Path) (return_plot : bool)
    (w : env) : Outcome string array * env :=
  match m, lookup p (disk w) with
  | Some _, Some (Image h wd) =>
      (Ok (if return_plot then Image h wd else Boxes 3), w)
  | _, _ => (Raise "OSError", w)
  end.

Definition reverse (a : array) : Outcome string array :=
  match a with
  | Image h wd => Ok (Image h wd)
  | Boxes _ => Raise "IndexError"
  end.

#[export] Instance collaborators : Collaborators := {|
  World := env;
  Config := string;
  Model := string;
  Array := array;
  Args := list string;
  Comet := unit;
  ExtError := string;
  utilities_read_config := fun w => (Ok "deepforest_config.yml", w);
  utilities_read_model := read_model;
  utilities_use_release := fun w => (Ok "data/NEON.h5", w);
  utilities_format_args :=
    fun a cfg _ w => (Ok ["--config"; cfg; "csv"; a], w);
  print_args := fun _ w => (Ok tt, w);
  retinanet_train :=
    fun _ _ _ _ w => (Ok ("trained", "trained+nms", "trained-nms"), w);
  convert_model := convert;
  predict_predict_image := predict;
  reverse_channels := reverse;
  plt_imshow := fun _ w => (Ok tt, w);
  plt_show :=
    fun w => (Ok tt, {| disk := disk w; windows := S (windows w) |})
|}.

(** One aerial tile on disk, nothing shown yet, no call made yet. *)
Definition start : Ext collaborators :=
  {| world := {| disk := [("tile.tif", Image 400 400)]; windows := 0 |};
     trace := [] |}.

(** A session built with no saved-model path, as [deepforest()] leaves it. *)
Definition fresh : State collaborators :=
  {| self := {| saved_model := None; config := "deepforest_config.yml";
                model := None; prediction_model := None;
                training_model := None |};
     ext := {| world := world start; trace := [CReadConfig] |} |}.

(** A session built from a saved model, as [deepforest("weights.h5")]
    leaves it. *)
Definition loaded : State collaborators :=
  {| self := {| saved_model := Some "weights.h5";
                config := "deepforest_config.yml";
                model := Some "model:weights.h5"; prediction_model := None;
                training_model := None |};
     ext := {| world := world start;
               trace := [CReadConfig;
                         CReadModel "weights.h5" "deepforest_config.yml"] |} |}.

(** The session [fresh] after [train("annotations.csv")]. *)
Definition trained : State collaborators :=
  snd (train "annotations.csv" "fit_generator" None None None fresh).

(** The session [fresh] after [use_release()]. *)
Definition released : State collaborators :=
  snd (use_release fresh).

(** The outside after a constructor call on a path that does not load. *)
Definition after_failed_load : Ext collaborators :=
  snd (__init__ (Some "") start).

(** The same collaborators on a bad day: the release is resolved but its file
    does not load, and training runs out of memory. *)
Definition unreliable : Collaborators := {|
  World := env;
  Config := string;
  Model := string;
  Array := array;
  Args := list string;
  Comet := unit;
  ExtError := string;
  utilities_read_config := fun w => (Ok "deepforest_config.yml", w);
  utilities_read_model :=
    fun p cfg w =>
      if String.eqb p "data/NEON.h5" then (Raise "OSError", w)
      else read_model p cfg w;
  utilities_use_release := fun w => (Ok "data/NEON.h5", w);
  utilities_format_args :=
    fun a cfg _ w => (Ok ["--config"; cfg; "csv"; a], w);
  print_args := fun _ w => (Ok tt, w);
  retinanet_train :=
    fun _ _ _ _ w => (Raise "ResourceExhaustedError", w);
  convert_model := convert;
  predict_predict_image := predict;
  reverse_channels := reverse;
  plt_imshow := fun _ w => (Ok tt, w);
  plt_show :=
    fun w => (Ok tt, {| disk := disk w; windows := S (windows w) |})
|}.

(** A session built with no saved-model path on that day. *)
Definition fresh_unreliable : State unreliable :=
  mkState (C := unreliable)
    (mkSession (C := unreliable)
       None "deepforest_config.yml" None None None)
    (mkExt (C := unreliable)
       {| disk := [("tile.tif", Image 400 400)]; windows := 0 |}
       [CReadConfig]).

(** That session after a [use_release()] that raised. *)
Definition half_released : State unreliable :=
  snd (use_release fresh_unreliable).

End Demo.

(** * Properties *)

(** ** Running the monad *)

Ltac unfold_methods :=
  unfold run_op, train, use_release, predict_image, __init__, show_image.

Ltac unfold_monad :=
  unfold bind, ret, raise, get_self, set_self, outside, call, pure_step.

(** Split on the outcome of the next collaborator call in the goal. *)
Ltac next_call :=
  match goal with
  | |- context [let (_, _) := ?f ?w in _] =>
      let r := fresh "r" in
      let w' := fresh "w" in
      let E := fresh "Hcall" in
      destruct (f w) as [r w'] eqn:E; destruct r; cbn [delegated fst snd]
  | |- context [delegated ?r] =>
      let E := fresh "Hstep" in
      destruct r eqn:E; cbn [delegated fst snd]
  | |- context [let (_, _) := ?t in _] =>
      let x := fresh "m" in
      let y := fresh "m" in
      destruct t as [x y]
  end.

Ltac run := unfold_methods; unfold_monad; cbn; repeat (next_call; cbn).

Section Properties.

Context {C : Collaborators}.

Implicit Types (st : State C) (e : Ext C) (s : Session C).

(** Count the configuration reads of a log that grew by some calls. *)
Ltac count_reads :=
  unfold config_reads; cbn;
  repeat (rewrite filter_app, length_app); cbn; lia.

(** *** The guard of [predict_image] *)

Lemma predict_image_guard st image_path return_plot show :
  saved_model (self st) = None ->
  predict_image image_path return_plot show st
  = (Raise (ValueError no_weights_msg), st).
Proof.
  intros Hnone. unfold predict_image, bind, get_self, raise.
  cbn. now rewrite Hnone.
Qed.

Lemma predict_image_past_guard st image_path return_plot show msg :
  fst (predict_image image_path return_plot show st) = Raise (ValueError msg) ->
  saved_model (self st) = None.
Proof.
  destruct (saved_model (self st)) as [sp|] eqn:Hsm; [|reflexivity].
  unfold predict_image, bind, get_self. cbn. rewrite Hsm.
  destruct return_plot, show; run; try discriminate.
Qed.

(** *** What each method leaves alone *)

Lemma predict_image_frame st image_path return_plot show :
  let st' := snd (predict_image image_path return_plot show st) in
  saved_model (self st') = saved_model (self st) /\
  config (self st') = config (self st) /\
  model (self st') = model (self st) /\
  training_model (self st') = training_model (self st).
Proof.
  unfold predict_image, bind, get_self. cbn.
  destruct (saved_model (self st)) as [sp|] eqn:Hsm.
  - destruct return_plot, show; run; cbn; auto.
  - cbn. auto.
Qed.

Lemma train_frame st annotations input_type tfrecords comet images_per_epoch :
  let st' :=
    snd (train annotations input_type tfrecords comet images_per_epoch st) in
  saved_model (self st') = saved_model (self st) /\
  config (self st') = config (self st).
Proof.
  run; cbn; auto.
Qed.

Lemma use_release_frame st :
  let st' := snd (use_release st) in
  config (self st') = config (self st) /\
  prediction_model (self st') = prediction_model (self st) /\
  training_model (self st') = training_model (self st).
Proof.
  run; cbn; auto.
Qed.

Lemma run_op_config st o :
  config (self (snd (run_op o st))) = config (self st).
Proof.
  destruct o; cbn [run_op].
  - apply train_frame.
  - apply use_release_frame.
  - apply predict_image_frame.
Qed.

Lemma run_op_saved_model st o :
  is_loading o = false ->
  saved_model (self (snd (run_op o st))) = saved_model (self st).
Proof.
  destruct o; cbn [run_op is_loading]; intros Hload.
  - apply train_frame.
  - discriminate.
  - apply predict_image_frame.
Qed.

(** No public method reads the configuration file. *)
Lemma run_op_config_reads st o :
  config_reads (trace (ext (snd (run_op o st)))) = config_reads (trace (ext st)).
Proof.
  destruct o; cbn [run_op].
  - run; count_reads.
  - run; count_reads.
  - unfold predict_image, bind, get_self. cbn.
    destruct (saved_model (self st)); [|reflexivity].
    destruct return_plot, show; run; count_reads.
Qed.

Lemma run_ops_config ops : forall st,
  config (self (run_ops ops st)) = config (self st).
Proof.
  induction ops as [|o ops IH]; intros st; cbn [run_ops]; [reflexivity|].
  now rewrite IH, run_op_config.
Qed.

Lemma run_ops_config_reads ops : forall st,
  config_reads (trace (ext (run_ops ops st))) = config_reads (trace (ext st)).
Proof.
  induction ops as [|o ops IH]; intros st; cbn [run_ops]; [reflexivity|].
  now rewrite IH, run_op_config_reads.
Qed.

Lemma run_ops_saved_model ops : forall st,
  no_loading ops = true ->
  saved_model (self (run_ops ops st)) = saved_model (self st).
Proof.
  induction ops as [|o ops IH]; intros st Hno; cbn [run_ops]; [reflexivity|].
  cbn in Hno. apply andb_true_iff in Hno as [Ho Hops].
  rewrite IH by exact Hops.
  apply run_op_saved_model. now apply negb_true_iff.
Qed.

(** *** What each method does when its collaborators return *)

Lemma init_returns e saved s e' :
  __init__ saved e = (Ok s, e') ->
  saved_model s = saved /\
  prediction_model s = None /\ training_model s = None /\
  (exists w1, utilities_read_config (world e) = (Ok (config s), w1)) /\
  (saved = None -> model s = None) /\
  (saved <> None -> exists m, model s = Some m) /\
  config_reads (trace e') = S (config_reads (trace e)).
Proof.
  unfold __init__, bind, ret, call. cbn.
  destruct (utilities_read_config (world e)) as [[cfg|x] w1] eqn:Hcfg;
    cbn; [|discriminate].
  destruct saved as [p|]; cbn.
  - destruct (utilities_read_model p cfg w1) as [[m|x] w2] eqn:Hm;
      cbn; [|discriminate].
    intros H; inversion H; subst; clear H. cbn.
    repeat split; eauto; [discriminate | count_reads].
  - intros H; inversion H; subst; clear H. cbn.
    repeat split; eauto; [congruence | count_reads].
Qed.

Lemma train_returns st annotations input_type tfrecords comet images_per_epoch
    v st' :
  train annotations input_type tfrecords comet images_per_epoch st
  = (Ok v, st') ->
  exists arg_list w1 w2 m pm tm w3,
    utilities_format_args annotations (config (self st)) images_per_epoch
      (world (ext st)) = (Ok arg_list, w1) /\
    print_args arg_list w1 = (Ok tt, w2) /\
    retinanet_train arg_list input_type tfrecords comet w2
    = (Ok (m, pm, tm), w3) /\
    v = VNone /\
    st' = {| self := {| saved_model := saved_model (self st);
                        config := config (self st);
                        model := Some m;
                        prediction_model := Some pm;
                        training_model := Some tm |};
             ext := {| world := w3;
                       trace := trace (ext st) ++
                                [CFormatArgs annotations (config (self st))
                                   images_per_epoch;
                                 CPrint arg_list;
                                 CRetinanetTrain arg_list input_type tfrecords
                                   comet] |} |}.
Proof.
  run; intros H; inversion H; subst; clear H.
  match goal with u : unit |- _ => destruct u end.
  do 7 eexists. repeat split; try eassumption.
  cbn. now rewrite <- !app_assoc.
Qed.

Lemma train_completes st annotations input_type tfrecords comet
    images_per_epoch arg_list w1 w2 m pm tm w3 :
  utilities_format_args annotations (config (self st)) images_per_epoch
    (world (ext st)) = (Ok arg_list, w1) ->
  print_args arg_list w1 = (Ok tt, w2) ->
  retinanet_train arg_list input_type tfrecords comet w2
  = (Ok (m, pm, tm), w3) ->
  train annotations input_type tfrecords comet images_per_epoch st
  = (Ok VNone,
     {| self := {| saved_model := saved_model (self st);
                   config := config (self st);
                   model := Some m;
                   prediction_model := Some pm;
                   training_model := Some tm |};
        ext := {| world := w3;
                  trace := trace (ext st) ++
                           [CFormatArgs annotations (config (self st))
                              images_per_epoch;
                            CPrint arg_list;
                            CRetinanetTrain arg_list input_type tfrecords
                              comet] |} |}).
Proof.
  intros Hargs Hprint Htrain.
  unfold_methods; unfold_monad; cbn.
  rewrite Hargs; cbn. rewrite Hprint; cbn. rewrite Htrain; cbn.
  now rewrite <- !app_assoc.
Qed.

Lemma use_release_returns st v st' :
  use_release st = (Ok v, st') ->
  exists p w1 m w2,
    utilities_use_release (world (ext st)) = (Ok p, w1) /\
    utilities_read_model p (config (self st)) w1 = (Ok m, w2) /\
    v = VNone /\
    st' = {| self := {| saved_model := Some p;
                        config := config (self st);
                        model := Some m;
                        prediction_model := prediction_model (self st);
                        training_model := training_model (self st) |};
             ext := {| world := w2;
                       trace := trace (ext st) ++
                                [CUseRelease;
                                 CReadModel p (config (self st))] |} |}.
Proof.
  run; intros H; inversion H; subst; clear H.
  do 4 eexists. repeat split; try eassumption.
  cbn. now rewrite <- !app_assoc.
Qed.

Lemma use_release_completes st p w1 m w2 :
  utilities_use_release (world (ext st)) = (Ok p, w1) ->
  utilities_read_model p (config (self st)) w1 = (Ok m, w2) ->
  use_release st
  = (Ok VNone,
     {| self := {| saved_model := Some p;
                   config := config (self st);
                   model := Some m;
                   prediction_model := prediction_model (self st);
                   training_model := training_model (self st) |};
        ext := {| world := w2;
                  trace := trace (ext st) ++
                           [CUseRelease;
                            CReadModel p (config (self st))] |} |}).
Proof.
  intros Hrel Hread.
  unfold_methods; unfold_monad; cbn.
  rewrite Hrel; cbn. rewrite Hread; cbn.
  now rewrite <- !app_assoc.
Qed.

(** In raw mode the [show] flag is not looked at. *)
Lemma predict_image_raw_ignores_show st image_path show :
  predict_image image_path false show st = predict_image image_path false false st.
Proof.
  reflexivity.
Qed.

(** Past the guard, with a conversion and a prediction that return, the call
    returns the predicted array as soon as the display (if any) returns. *)
Lemma predict_image_completes st sp pm w1 a w2 image_path return_plot show e3 :
  saved_model (self st) = Some sp ->
  convert_model (model (self st)) (world (ext st)) = (Ok pm, w1) ->
  predict_predict_image (Some pm) image_path return_plot w1 = (Ok a, w2) ->
  (if return_plot && show then show_image a else ret tt)
    {| world := w2;
       trace := trace (ext st) ++
                [CConvertModel (model (self st));
                 CPredictImage (Some pm) image_path return_plot] |}
  = (Ok tt, e3) ->
  predict_image image_path return_plot show st
  = (Ok (VArray a),
     {| self := set_prediction_model (Some pm) (self st); ext := e3 |}).
Proof.
  intros Hsm Hconv Hpred Hshow.
  unfold predict_image, bind, get_self, set_self, outside, call, ret. cbn.
  rewrite Hsm, Hconv. cbn.
  destruct return_plot; cbn in *; rewrite Hpred; cbn;
    rewrite <- app_assoc; cbn.
  - destruct show; cbn in *.
    + now rewrite Hshow.
    + unfold ret in Hshow. now inversion Hshow.
  - unfold ret in Hshow. now inversion Hshow.
Qed.

(** ** The guard and the sessions it refuses *)

(** C2: a session constructed with no saved-model path, on which any sequence
    of public operations other than [use_release] has run (trainings and
    earlier predictions included, whether they returned or raised), fails
    [predict_image] with the invalid-state [ValueError], for every image path
    and both flags; the session and the outside are as before the call, and
    the message names the three ways out: train, load, or use the release. *)
Theorem predict_image_without_saved_model_fails
    e s e' ops image_path return_plot show :
  __init__ None e = (Ok s, e') ->
  no_loading ops = true ->
  let st := run_ops ops {| self := s; ext := e' |} in
  predict_image image_path return_plot show st
  = (Raise (ValueError no_weights_msg), st) /\
  mentions "train a new model using deepforest.train" no_weights_msg = true /\
  mentions "loading existing model" no_weights_msg = true /\
  mentions "use prebuilt model (see deepforest.use_release()" no_weights_msg
  = true.
Proof.
  intros Hinit Hops st.
  split; [|repeat split; reflexivity].
  apply predict_image_guard.
  unfold st. rewrite run_ops_saved_model by exact Hops.
  cbn. now apply init_returns in Hinit as [Hsaved _].
Qed.

(** C10: when [predict_image] raises the invalid-state [ValueError], the state
    after the call is the state before it: no attribute of the session was
    assigned, the world is untouched and the log of calls has not grown, so no
    collaborator ran.  The error is the one of the guard, which fires exactly
    on a session whose [saved_model] is [None]. *)
Theorem predict_image_invalid_state_changes_nothing
    st image_path return_plot show msg st' :
  predict_image image_path return_plot show st
  = (Raise (ValueError msg), st') ->
  st' = st /\
  trace (ext st') = trace (ext st) /\
  msg = no_weights_msg /\
  saved_model (self st) = None.
Proof.
  intros Hraise.
  assert (Hnone : saved_model (self st) = None).
  { apply (predict_image_past_guard st image_path return_plot show msg).
    now rewrite Hraise. }
  rewrite (predict_image_guard _ _ _ _ Hnone) in Hraise.
  inversion Hraise; subst. auto.
Qed.

(** C1 (what the code does): [train] does not assign [saved_model], which is
    the attribute the guard tests.  So on a session built with no saved-model
    path, a training that returned leaves a trained model in [model] and
    [predict_image] still raises the invalid-state [ValueError]. *)
Theorem predict_image_refuses_trained_session
    st annotations input_type tfrecords comet images_per_epoch v st'
    image_path return_plot show :
  saved_model (self st) = None ->
  train annotations input_type tfrecords comet images_per_epoch st
  = (Ok v, st') ->
  (exists m, model (self st') = Some m) /\
  predict_image image_path return_plot show st'
  = (Raise (ValueError no_weights_msg), st').
Proof.
  intros Hnone Htrain.
  pose proof (train_frame st annotations input_type tfrecords comet
                images_per_epoch) as Hframe.
  rewrite Htrain in Hframe. cbn in Hframe. destruct Hframe as [Hsaved _].
  apply train_returns in Htrain
    as (args & w1 & w2 & m & pm & tm & w3 & _ & _ & _ & _ & Hst).
  split.
  - exists m. now rewrite Hst.
  - apply predict_image_guard. now rewrite Hsaved.
Qed.

(** ** Training *)

(** C3 (what the code does): the body of [train] has no [return] statement.  A
    call that completes hands [None] back to the caller; the three handles
    that [retinanet_train] produced are stored on the session and are not
    returned. *)
Theorem train_returns_none
    st annotations input_type tfrecords comet images_per_epoch v st' :
  train annotations input_type tfrecords comet images_per_epoch st
  = (Ok v, st') ->
  v = VNone /\
  exists m pm tm,
    model (self st') = Some m /\
    prediction_model (self st') = Some pm /\
    training_model (self st') = Some tm /\
    v <> VTuple3 (VModel m) (VModel pm) (VModel tm).
Proof.
  intros Htrain.
  apply train_returns in Htrain
    as (args & w1 & w2 & m & pm & tm & w3 & _ & _ & _ & Hv & Hst).
  split; [exact Hv|].
  exists m, pm, tm. rewrite Hst, Hv. cbn.
  repeat split; discriminate.
Qed.

(** C7: whenever the delegated calls of [train] return (argument formatting,
    the log line, and [retinanet_train] with the triple [(m, pm, tm)]),
    [train] completes and the session's [model], [prediction_model] and
    [training_model] hold [m], [pm] and [tm], whatever they held before;
    [saved_model] and [config] keep their values. *)
Theorem train_overwrites_model_references
    st annotations input_type tfrecords comet images_per_epoch
    arg_list w1 w2 m pm tm w3 :
  utilities_format_args annotations (config (self st)) images_per_epoch
    (world (ext st)) = (Ok arg_list, w1) ->
  print_args arg_list w1 = (Ok tt, w2) ->
  retinanet_train arg_list input_type tfrecords comet w2
  = (Ok (m, pm, tm), w3) ->
  exists v st',
    train annotations input_type tfrecords comet images_per_epoch st
    = (Ok v, st') /\
    model (self st') = Some m /\
    prediction_model (self st') = Some pm /\
    training_model (self st') = Some tm /\
    saved_model (self st') = saved_model (self st) /\
    config (self st') = config (self st).
Proof.
  intros Hargs Hprint Htrain.
  do 2 eexists. split.
  - eapply train_completes; eassumption.
  - cbn. auto.
Qed.

(** ** Loading a model *)

(** A session whose constructor was given a path and returned holds the model
    read from that path, and [predict_image] on it never raises the
    invalid-state [ValueError]: it goes on to convert that model. *)
Theorem constructed_with_path_can_predict
    e p s e' image_path return_plot show :
  __init__ (Some p) e = (Ok s, e') ->
  saved_model s = Some p /\
  (exists w1 m w2,
      utilities_read_config (world e) = (Ok (config s), w1) /\
      utilities_read_model p (config s) w1 = (Ok m, w2) /\
      model s = Some m) /\
  (forall msg,
      fst (predict_image image_path return_plot show {| self := s; ext := e' |})
      <> Raise (ValueError msg)).
Proof.
  intros Hinit.
  assert (Hsaved : saved_model s = Some p)
    by now apply init_returns in Hinit as [Hsaved _].
  split; [exact Hsaved|]. split.
  - revert Hinit. unfold __init__, bind, ret, call. cbn.
    destruct (utilities_read_config (world e)) as [[cfg|x] w1] eqn:Hcfg;
      cbn; [|discriminate].
    destruct (utilities_read_model p cfg w1) as [[m|x] w2] eqn:Hm;
      cbn; [|discriminate].
    intros H; inversion H; subst; clear H. cbn.
    exists w1, m, w2. auto.
  - intros msg Hraise. apply predict_image_past_guard in Hraise.
    cbn in Hraise. congruence.
Qed.


(** C4: when [use_release] completes, the release resolver returned a local
    path [p] and the model reader returned a handle [m] for it; the session
    then holds [Some p] in [saved_model] and [Some m] in [model].  A following
    [predict_image] never raises the invalid-state [ValueError] and goes on to
    inference: its first act is the conversion of [m]. *)
Theorem use_release_enables_predict_image st v st' :
  use_release st = (Ok v, st') ->
  exists p w1 m w2,
    utilities_use_release (world (ext st)) = (Ok p, w1) /\
    utilities_read_model p (config (self st)) w1 = (Ok m, w2) /\
    saved_model (self st') = Some p /\
    model (self st') = Some m /\
    forall image_path return_plot show,
      (forall msg,
          fst (predict_image image_path return_plot show st')
          <> Raise (ValueError msg)) /\
      exists later,
        trace (ext (snd (predict_image image_path return_plot show st')))
        = trace (ext st') ++ CConvertModel (Some m) :: later.
Proof.
  intros Hrel.
  apply use_release_returns in Hrel as (p & w1 & m & w2 & Hp & Hm & _ & Hst).
  exists p, w1, m, w2. rewrite Hst. cbn [self saved_model model].
  repeat split; try assumption.
  - intros msg Hraise. apply predict_image_past_guard in Hraise.
    discriminate.
  - unfold predict_image, bind, get_self. cbn.
    destruct return_plot, show; run;
      eexists; rewrite <- ?app_assoc; cbn; reflexivity.
Qed.

(** ** Inference *)

Ltac shown_events :=
  first
    [ exists []; split; [now rewrite app_nil_r | reflexivity]
    | match goal with
      | |- context [CImshow ?view] =>
          first
            [ exists [CImshow view; CShow]; split;
              [now rewrite <- !app_assoc | reflexivity]
            | exists [CImshow view]; split;
              [now rewrite <- !app_assoc | reflexivity] ]
      end ].

(** C5: run [predict_image] twice from the same state, once with [show=False]
    (outcome [r0]) and once with [show=True] (outcome [r1]), all else equal.
    The two runs leave the same session; the log of the second is the log of
    the first followed by display calls only; and the outcomes are the same,
    unless the first returned and the display itself raised.  In particular
    two returned values are equal. *)
Theorem predict_image_show_keeps_result st image_path return_plot :
  let (r0, st0) := predict_image image_path return_plot false st in
  let (r1, st1) := predict_image image_path return_plot true st in
  self st1 = self st0 /\
  (exists shown,
      trace (ext st1) = trace (ext st0) ++ shown /\
      forallb is_display shown = true) /\
  (r1 = r0 \/
   exists a x, r0 = Ok (VArray a) /\ r1 = Raise (Delegated x) /\
               return_plot = true) /\
  (forall v0 v1, r0 = Ok v0 -> r1 = Ok v1 -> v1 = v0).
Proof.
  unfold predict_image, bind, get_self. cbn.
  destruct (saved_model (self st)) as [sp|].
  - destruct return_plot; run;
      (split; [reflexivity|]); (split; [shown_events|]);
      (split; [solve [left; reflexivity | right; eauto]|]);
      intros v0 v1 H0 H1; congruence.
  - cbn. split; [reflexivity|]. split; [shown_events|].
    split; [now left|]. discriminate.
Qed.

(** C8: on a call of [predict_image] that gets past the guard, the first act
    is a call of [convert_model] on the model the session holds (so every
    such call converts anew); when that conversion returns [pm], the
    session's [prediction_model] is [pm] after the call, whatever happens
    later in the call, and when it raises, the call raises the same and the
    session is untouched.  In every case [model], [saved_model], [config] and
    [training_model] keep their values. *)
Theorem predict_image_reconverts_every_call
    st sp image_path return_plot show :
  saved_model (self st) = Some sp ->
  let (rc, w1) := convert_model (model (self st)) (world (ext st)) in
  let (r, st') := predict_image image_path return_plot show st in
  model (self st') = model (self st) /\
  saved_model (self st') = saved_model (self st) /\
  config (self st') = config (self st) /\
  training_model (self st') = training_model (self st) /\
  (exists later,
      trace (ext st')
      = trace (ext st) ++ CConvertModel (model (self st)) :: later) /\
  match rc with
  | Ok pm => prediction_model (self st') = Some pm
  | Raise x => r = Raise (Delegated x) /\ self st' = self st
  end.
Proof.
  intros Hsm.
  unfold predict_image, bind, get_self. cbn. rewrite Hsm.
  unfold outside at 1, call at 1. cbn.
  destruct (convert_model (model (self st)) (world (ext st)))
    as [[pm|x] w1]; cbn.
  - destruct return_plot, show; run;
      repeat (split; [first [reflexivity | exact Hsm]|]);
      (split; [eexists; rewrite <- ?app_assoc; cbn; reflexivity
              |reflexivity]).
  - repeat (split; [first [reflexivity | exact Hsm]|]).
    split; [exists []; reflexivity | split; reflexivity].
Qed.

(** C6 (what the code does): a session may hold a model and still get nothing
    back.  Take a session built without a saved-model path on which [train]
    has completed: it holds the trained model, and converting that model and
    predicting on the image would return the array [a].  [predict_image] does
    not return [a], neither with [return_plot=True] nor with
    [return_plot=False]: the guard of line 85 tests [saved_model], which
    [train] never assigns, and the call raises the invalid-state [ValueError]
    and leaves the state as it was, so neither collaborator is called.  This
    is the defect of C1, seen from the value returned. *)
Theorem predict_image_withholds_result_on_trained_session
    st annotations input_type tfrecords comet images_per_epoch v st'
    pm w1 a w2 image_path return_plot show :
  saved_model (self st) = None ->
  train annotations input_type tfrecords comet images_per_epoch st
  = (Ok v, st') ->
  convert_model (model (self st')) (world (ext st')) = (Ok pm, w1) ->
  predict_predict_image (Some pm) image_path return_plot w1 = (Ok a, w2) ->
  (exists m, model (self st') = Some m) /\
  predict_image image_path return_plot show st'
  = (Raise (ValueError no_weights_msg), st') /\
  fst (predict_image image_path return_plot show st') <> Ok (VArray a).
Proof.
  intros Hnone Htrain _ _.
  assert (Hsaved : saved_model (self st') = None).
  { pose proof (train_frame st annotations input_type tfrecords comet
                  images_per_epoch) as Hframe.
    rewrite Htrain in Hframe. cbn in Hframe.
    destruct Hframe as [Hkeep _]. now rewrite Hkeep. }
  apply train_returns in Htrain
    as (args & w1' & w2' & m & pm0 & tm & w3 & _ & _ & _ & _ & Hst).
  split; [exists m; now rewrite Hst|].
  rewrite (predict_image_guard st' image_path return_plot show Hsaved).
  split; [reflexivity|]. cbn. discriminate.
Qed.

(** [predict_image] returns a value exactly when the session is past the
    guard and the conversion, the prediction and (in plot mode with
    [show=True]) the display all return.  The value is then the array that
    [predict.predict_image] returned for the freshly converted model, the
    caller's image path and the caller's [return_plot]; the session differs
    from the one before by [prediction_model] only, which holds the converted
    model. *)
Theorem predict_image_returns_predicted_array
    st image_path return_plot show v st' :
  predict_image image_path return_plot show st = (Ok v, st') <->
  exists sp pm w1 a w2 e3,
    saved_model (self st) = Some sp /\
    convert_model (model (self st)) (world (ext st)) = (Ok pm, w1) /\
    predict_predict_image (Some pm) image_path return_plot w1 = (Ok a, w2) /\
    (if return_plot && show then show_image a else ret tt)
      {| world := w2;
         trace := trace (ext st) ++
                  [CConvertModel (model (self st));
                   CPredictImage (Some pm) image_path return_plot] |}
    = (Ok tt, e3) /\
    v = VArray a /\
    st' = {| self := set_prediction_model (Some pm) (self st); ext := e3 |}.
Proof.
  split.
  - unfold predict_image, bind, get_self, set_self, outside, call, ret.
    cbn -[show_image].
    destruct (saved_model (self st)) as [sp|] eqn:Hsm; [|discriminate].
    cbn -[show_image].
    destruct (convert_model (model (self st)) (world (ext st)))
      as [[pm|x] w1] eqn:Hconv; cbn -[show_image]; [|discriminate].
    destruct return_plot; cbn -[show_image].
    + destruct (predict_predict_image (Some pm) image_path true w1)
        as [[a|x] w2] eqn:Hpred; cbn -[show_image]; [|discriminate].
      rewrite <- app_assoc. cbn [app].
      destruct show; cbn -[show_image].
      * match goal with
        | |- context [show_image a ?e0] =>
            destruct (show_image a e0) as [[u|x] e3] eqn:Hshow
        end; cbn; [|discriminate].
        destruct u. intros H; inversion H; subst; clear H.
        exists sp, pm, w1, a, w2, e3. auto 10.
      * intros H; inversion H; subst; clear H.
        do 6 eexists. repeat split; eauto.
    + destruct (predict_predict_image (Some pm) image_path false w1)
        as [[a|x] w2] eqn:Hpred; cbn; [|discriminate].
      rewrite <- app_assoc. cbn [app].
      intros H; inversion H; subst; clear H.
      do 6 eexists. repeat split; eauto.
  - intros (sp & pm & w1 & a & w2 & e3 & Hsm & Hconv & Hpred & Hshow
            & -> & ->).
    now apply (predict_image_completes st sp pm w1 a w2).
Qed.

(** ** The configuration *)

(** C9: a constructor that returns has read the configuration once (the log
    holds one more read than before), and the session's [config] is the value
    that read returned.  After any sequence of public operations, each run
    from where the previous one left off whether it returned or raised,
    [config] is still that value and the log holds no further read. *)
Theorem config_read_once_and_kept saved e s e' ops :
  __init__ saved e = (Ok s, e') ->
  (exists w1, utilities_read_config (world e) = (Ok (config s), w1)) /\
  config_reads (trace e') = S (config_reads (trace e)) /\
  let st := run_ops ops {| self := s; ext := e' |} in
  config (self st) = config s /\
  config_reads (trace (ext st)) = config_reads (trace e').
Proof.
  intros Hinit.
  apply init_returns in Hinit as (_ & _ & _ & Hread & _ & _ & Hcount).
  split; [exact Hread|]. split; [exact Hcount|].
  cbn zeta. now rewrite run_ops_config, run_ops_config_reads.
Qed.

End Properties.

(** * Failure paths, invariants and composition *)

Section Behaviour.

Context {C : Collaborators}.

Implicit Types (st : State C) (e : Ext C) (s : Session C).

(** ** When a method raises *)

(** The three model attributes are assigned together or not at all: when
    [train] raises, every attribute of the session is as it was, and the
    exception is the one a collaborator raised (argument formatting, the log
    line, or the training entry point, in that order), unwrapped. *)
Theorem train_raises_leaves_session
    st annotations input_type tfrecords comet images_per_epoch x st' :
  train annotations input_type tfrecords comet images_per_epoch st
  = (Raise x, st') ->
  self st' = self st /\
  exists err, x = Delegated err /\
    ((exists w1,
         utilities_format_args annotations (config (self st)) images_per_epoch
           (world (ext st)) = (Raise err, w1)) \/
     (exists arg_list w1 w2,
         utilities_format_args annotations (config (self st)) images_per_epoch
           (world (ext st)) = (Ok arg_list, w1) /\
         print_args arg_list w1 = (Raise err, w2)) \/
     (exists arg_list w1 w2 w3,
         utilities_format_args annotations (config (self st)) images_per_epoch
           (world (ext st)) = (Ok arg_list, w1) /\
         print_args arg_list w1 = (Ok tt, w2) /\
         retinanet_train arg_list input_type tfrecords comet w2
         = (Raise err, w3))).
Proof.
  run; intros H; inversion H; subst; clear H; cbn;
    (split; [reflexivity|]); eexists; (split; [reflexivity|]).
  - right; right.
    match goal with u : unit |- _ => destruct u end.
    do 4 eexists. eauto.
  - right; left. do 3 eexists. eauto.
  - left. eexists. eauto.
Qed.

(** [use_release] assigns the path before it reads the model (lines 70-71), so
    a failure can leave the session half-updated.  When it raises, either the
    release resolver raised and the session is as it was, or the resolver
    returned a path [p] and the model reader raised: then [saved_model] is [p]
    and every other attribute, [model] included, is as it was.  The exception
    is the collaborator's, unwrapped. *)
Theorem use_release_raises_cases st x st' :
  use_release st = (Raise x, st') ->
  exists err, x = Delegated err /\
    ((exists w1,
         utilities_use_release (world (ext st)) = (Raise err, w1) /\
         self st' = self st) \/
     (exists p w1 w2,
         utilities_use_release (world (ext st)) = (Ok p, w1) /\
         utilities_read_model p (config (self st)) w1 = (Raise err, w2) /\
         self st' = set_saved_model (Some p) (self st))).
Proof.
  run; intros H; inversion H; subst; clear H; cbn;
    eexists; (split; [reflexivity|]).
  - right. do 3 eexists. eauto.
  - left. eexists. eauto.
Qed.

(** After a [use_release] whose resolver returned and whose model reader
    raised, [predict_image] gets past the guard although no model was loaded:
    it never raises the invalid-state [ValueError], and its first act is to
    convert the model the session held before, which on a session built
    without a path is [None]. *)
Theorem use_release_failed_load_opens_guard
    st p w1 err w2 image_path return_plot show :
  utilities_use_release (world (ext st)) = (Ok p, w1) ->
  utilities_read_model p (config (self st)) w1 = (Raise err, w2) ->
  exists st',
    use_release st = (Raise (Delegated err), st') /\
    saved_model (self st') = Some p /\
    model (self st') = model (self st) /\
    (forall msg,
        fst (predict_image image_path return_plot show st')
        <> Raise (ValueError msg)) /\
    exists later,
      trace (ext (snd (predict_image image_path return_plot show st')))
      = trace (ext st') ++ CConvertModel (model (self st)) :: later.
Proof.
  intros Hrel Hread.
  eexists. split.
  - unfold use_release, bind, get_self, set_self, outside, call. cbn.
    rewrite Hrel. cbn. rewrite Hread. cbn. reflexivity.
  - cbn [self saved_model model set_saved_model].
    repeat split.
    + intros msg Hraise. apply predict_image_past_guard in Hraise.
      discriminate.
    + unfold predict_image, bind, get_self. cbn.
      destruct return_plot, show; run;
        eexists; rewrite <- ?app_assoc; cbn; reflexivity.
Qed.

(** When the constructor raises, the exception is the collaborator's,
    unwrapped: either the configuration read raised and no model read was
    attempted, or a path was given, the configuration was read, and the read
    of the model at that path under that configuration raised. *)
Theorem init_raises_cases saved e x e' :
  __init__ saved e = (Raise x, e') ->
  exists err, x = Delegated err /\
    ((exists w1,
         utilities_read_config (world e) = (Raise err, w1) /\
         e' = {| world := w1; trace := trace e ++ [CReadConfig] |}) \/
     (exists p cfg w1 w2,
         saved = Some p /\
         utilities_read_config (world e) = (Ok cfg, w1) /\
         utilities_read_model p cfg w1 = (Raise err, w2) /\
         e' = {| world := w2;
                 trace := trace e ++ [CReadConfig; CReadModel p cfg] |})).
Proof.
  unfold __init__, bind, ret, call. cbn.
  destruct (utilities_read_config (world e)) as [[cfg|err] w1] eqn:Hcfg; cbn.
  - destruct saved as [p|]; cbn; [|discriminate].
    destruct (utilities_read_model p cfg w1) as [[m|err] w2] eqn:Hm;
      cbn; [discriminate|].
    intros H; inversion H; subst; clear H.
    exists err. split; [reflexivity|]. right.
    exists p, cfg, w1, w2. rewrite <- app_assoc. auto.
  - intros H; inversion H; subst; clear H.
    exists err. split; [reflexivity|]. left. eauto.
Qed.

(** ** What a sequence of operations keeps *)

(** A property of the session kept by every operation, whether it returns or
    raises, is kept by every sequence. *)
Lemma run_ops_preserves (P : Session C -> Prop) :
  (forall st o, P (self st) -> P (self (snd (run_op o st)))) ->
  forall ops st, P (self st) -> P (self (run_ops ops st)).
Proof.
  intros Hstep ops.
  induction ops as [|o ops IH]; intros st HP; cbn [run_ops]; [exact HP|].
  apply IH, Hstep, HP.
Qed.

Lemma run_op_keeps_saved_model st o :
  is_set (saved_model (self st)) = true ->
  is_set (saved_model (self (snd (run_op o st)))) = true.
Proof.
  destruct o; cbn [run_op].
  - now destruct (train_frame st annotations input_type list_of_tfrecords
                    comet_experiment images_per_epoch) as [-> _].
  - run; cbn; auto.
  - now destruct (predict_image_frame st image_path return_plot show)
      as [-> _].
Qed.

Lemma run_op_keeps_model st o :
  is_set (model (self st)) = true ->
  is_set (model (self (snd (run_op o st)))) = true.
Proof.
  destruct o; cbn [run_op].
  - run; cbn; auto.
  - run; cbn; auto.
  - now destruct (predict_image_frame st image_path return_plot show)
      as (_ & _ & -> & _).
Qed.

Lemma run_op_keeps_prediction_model st o :
  is_set (prediction_model (self st)) = true ->
  is_set (prediction_model (self (snd (run_op o st)))) = true.
Proof.
  destruct o; cbn [run_op].
  - run; cbn; auto.
  - now destruct (use_release_frame st) as (_ & -> & _).
  - unfold predict_image, bind, get_self. cbn.
    destruct (saved_model (self st)); [|cbn; auto].
    destruct return_plot, show; run; cbn; auto.
Qed.

Lemma run_op_keeps_training_model st o :
  is_set (training_model (self st)) = true ->
  is_set (training_model (self (snd (run_op o st)))) = true.
Proof.
  destruct o; cbn [run_op].
  - run; cbn; auto.
  - now destruct (use_release_frame st) as (_ & _ & ->).
  - now destruct (predict_image_frame st image_path return_plot show)
      as (_ & _ & _ & ->).
Qed.

(** Once a session is past the guard it stays past it: no public operation
    resets [saved_model], so after any sequence of operations (returning or
    raising) on a session with a saved-model path, [predict_image] never
    raises the invalid-state [ValueError]. *)
Theorem guard_stays_open st sp ops image_path return_plot show :
  saved_model (self st) = Some sp ->
  (exists sp', saved_model (self (run_ops ops st)) = Some sp') /\
  (forall msg,
      fst (predict_image image_path return_plot show (run_ops ops st))
      <> Raise (ValueError msg)).
Proof.
  intros Hsm.
  assert (Hset : is_set (saved_model (self (run_ops ops st))) = true).
  { apply (run_ops_preserves
             (fun s => is_set (saved_model s) = true)).
    - intros st0 o. apply run_op_keeps_saved_model.
    - now rewrite Hsm. }
  destruct (saved_model (self (run_ops ops st))) as [sp'|] eqn:Hafter;
    [|discriminate].
  split; [now exists sp'|].
  intros msg Hraise. apply predict_image_past_guard in Hraise. congruence.
Qed.

(** No public operation clears a model attribute: over any sequence of
    operations, [model], [prediction_model] and [training_model] each stay
    set once they are set (their values may be replaced). *)
Theorem model_attributes_never_cleared st ops :
  (is_set (model (self st)) = true ->
   is_set (model (self (run_ops ops st))) = true) /\
  (is_set (prediction_model (self st)) = true ->
   is_set (prediction_model (self (run_ops ops st))) = true) /\
  (is_set (training_model (self st)) = true ->
   is_set (training_model (self (run_ops ops st))) = true).
Proof.
  repeat split.
  - apply (run_ops_preserves (fun s => is_set (model s) = true)).
    intros st0 o. apply run_op_keeps_model.
  - apply (run_ops_preserves (fun s => is_set (prediction_model s) = true)).
    intros st0 o. apply run_op_keeps_prediction_model.
  - apply (run_ops_preserves (fun s => is_set (training_model s) = true)).
    intros st0 o. apply run_op_keeps_training_model.
Qed.

(** [training_model] is assigned by [train] alone, together with the other
    two.  So on every session the constructor returned, after any sequence of
    operations, a session that holds a [training_model] holds a [model] and a
    [prediction_model] as well. *)
Theorem training_model_comes_with_the_others saved e s e' ops :
  __init__ saved e = (Ok s, e') ->
  let st := run_ops ops {| self := s; ext := e' |} in
  is_set (training_model (self st)) = true ->
  is_set (model (self st)) = true /\
  is_set (prediction_model (self st)) = true.
Proof.
  intros Hinit.
  apply init_returns in Hinit as (_ & _ & Htm & _).
  apply (run_ops_preserves
           (fun s0 => is_set (training_model s0) = true ->
                      is_set (model s0) = true /\
                      is_set (prediction_model s0) = true)).
  - intros st0 o Hinv. destruct o; cbn [run_op].
    + run; cbn; auto.
    + pose proof (run_op_keeps_model st0 OpUseRelease) as Hm.
      cbn [run_op] in Hm.
      destruct (use_release_frame st0) as (_ & Hpm & Hkeep).
      cbv zeta in Hpm, Hkeep. rewrite Hpm, Hkeep.
      intros Ht. destruct (Hinv Ht) as [Hmodel Hpred]. auto.
    + pose proof (run_op_keeps_prediction_model st0
                    (OpPredictImage image_path return_plot show)) as Hp.
      cbn [run_op] in Hp.
      destruct (predict_image_frame st0 image_path return_plot show)
        as (_ & _ & Hmodel & Hkeep).
      cbv zeta in Hmodel, Hkeep. rewrite Hmodel, Hkeep.
      intros Ht. destruct (Hinv Ht) as [Hm Hpred]. auto.
  - cbn. rewrite Htm. discriminate.
Qed.

(** ** How the methods compose *)

(** Training a session that is past the guard changes what inference runs on:
    the next [predict_image] converts the model [retinanet_train] just
    returned (not the one loaded from disk), and when that conversion returns
    it replaces the prediction model that [train] had stored. *)
Theorem predict_image_after_train_converts_trained_model
    st sp annotations input_type tfrecords comet images_per_epoch v st1
    image_path return_plot show :
  saved_model (self st) = Some sp ->
  train annotations input_type tfrecords comet images_per_epoch st
  = (Ok v, st1) ->
  exists arg_list w2 m pm tm,
    retinanet_train arg_list input_type tfrecords comet w2
    = (Ok (m, pm, tm), world (ext st1)) /\
    model (self st1) = Some m /\
    prediction_model (self st1) = Some pm /\
    (exists later,
        trace (ext (snd (predict_image image_path return_plot show st1)))
        = trace (ext st1) ++ CConvertModel (Some m) :: later) /\
    (forall pm' w',
        convert_model (Some m) (world (ext st1)) = (Ok pm', w') ->
        prediction_model
          (self (snd (predict_image image_path return_plot show st1)))
        = Some pm').
Proof.
  intros Hsm Htrain.
  apply train_returns in Htrain
    as (args & w1 & w2 & m & pm & tm & w3 & _ & _ & Hrt & _ & Hst).
  exists args, w2, m, pm, tm. subst st1. cbn [self ext world model
    prediction_model].
  repeat split; try assumption.
  - unfold predict_image, bind, get_self. cbn. rewrite Hsm.
    destruct return_plot, show; run;
      eexists; rewrite <- ?app_assoc; cbn; reflexivity.
  - intros pm' w' Hconv.
    unfold predict_image, bind, get_self, set_self, outside, call. cbn.
    rewrite Hsm. cbn. rewrite Hconv. cbn.
    destruct return_plot, show; run; reflexivity.
Qed.

(** ** The display *)

(** The display is touched only when both flags are set: with
    [return_plot=False] (whatever [show] is) or with [show=False], a call of
    [predict_image] logs no display call, whether it returns or raises. *)
Theorem predict_image_displays_only_on_request
    st image_path return_plot show :
  return_plot && show = false ->
  display_calls
    (trace (ext (snd (predict_image image_path return_plot show st))))
  = display_calls (trace (ext st)).
Proof.
  intros Hflags.
  unfold predict_image, bind, get_self. cbn.
  destruct (saved_model (self st)); [|reflexivity].
  destruct return_plot, show; try discriminate; run;
    unfold display_calls; repeat rewrite filter_app; cbn;
    now rewrite ?app_nil_r.
Qed.

(** When [predict_image] is asked to show the plot and returns, what it
    returns and what it displays both come from the one call of the prediction
    routine: the conversion of the held model returned [pm], the routine was
    called on [pm], the image path and [return_plot=True] and returned [a];
    the value returned is [a] itself, unreversed; the display received
    [plt.imshow] of [a] with its channel axis reversed, then one [plt.show],
    and these four calls, in this order, are all the calls made. *)
Theorem predict_image_shows_reversed_channels st image_path v st' :
  predict_image image_path true true st = (Ok v, st') ->
  exists pm w1 a w2 view w3 w4,
    convert_model (model (self st)) (world (ext st)) = (Ok pm, w1) /\
    predict_predict_image (Some pm) image_path true w1 = (Ok a, w2) /\
    v = VArray a /\
    reverse_channels a = Ok view /\
    plt_imshow view w2 = (Ok tt, w3) /\
    plt_show w3 = (Ok tt, w4) /\
    world (ext st') = w4 /\
    trace (ext st')
    = trace (ext st) ++
      [CConvertModel (model (self st)); CPredictImage (Some pm) image_path true;
       CImshow view; CShow] /\
    display_calls (trace (ext st'))
    = display_calls (trace (ext st)) ++ [CImshow view; CShow].
Proof.
  unfold predict_image, bind, get_self. cbn.
  destruct (saved_model (self st)); [|discriminate].
  run; intros H; inversion H; subst; clear H.
  repeat match goal with u : unit |- _ => destruct u end.
  do 7 eexists.
  repeat (split; [first [eassumption | reflexivity]|]).
  split.
  - cbn. now rewrite <- !app_assoc.
  - cbn. unfold display_calls. repeat rewrite filter_app. cbn.
    now rewrite ?app_nil_r, <- ?app_assoc.
Qed.

(** ** Who calls whom *)

(** Each public method calls only its own collaborators: whatever a call of
    [train] adds to the log is argument formatting, the log line or the
    training entry point; [use_release] adds only the release resolver and
    the model reader; [predict_image] adds only the conversion, the
    prediction routine and the display.  So inference never trains or
    downloads, and training never loads or displays. *)
Theorem run_op_calls_own_collaborators st o :
  exists added,
    trace (ext (snd (run_op o st))) = trace (ext st) ++ added /\
    forallb (is_call_of o) added = true.
Proof.
  destruct o; cbn [run_op].
  - run; eexists; (split; [rewrite <- ?app_assoc; cbn; reflexivity
                          |reflexivity]).
  - run; eexists; (split; [rewrite <- ?app_assoc; cbn; reflexivity
                          |reflexivity]).
  - unfold predict_image, bind, get_self. cbn.
    destruct (saved_model (self st)).
    + destruct return_plot, show; run;
        eexists; (split; [rewrite <- ?app_assoc; cbn; reflexivity
                         |reflexivity]).
    + exists []. split; [now rewrite app_nil_r | reflexivity].
Qed.

End Behaviour.

(** * The properties on the concrete collaborators *)

Module DemoFacts.

Import Demo.

(** The two sample sessions are what the constructor builds. *)
Example fresh_is_constructed :
  __init__ None start = (Ok (self fresh), ext fresh).
Proof. reflexivity. Qed.

Example loaded_is_constructed :
  __init__ (Some "weights.h5") start = (Ok (self loaded), ext loaded).
Proof. reflexivity. Qed.

(** A loaded session predicts: the plot, and the boxes. *)
Example loaded_predicts_plot :
  fst (predict_image "tile.tif" true false loaded) = Ok (VArray (Image 400 400)).
Proof. reflexivity. Qed.

Example loaded_predicts_boxes :
  fst (predict_image "tile.tif" false false loaded) = Ok (VArray (Boxes 3)).
Proof. reflexivity. Qed.

(** Showing the plot opens one window and returns the same plot. *)
Example loaded_shows_plot :
  fst (predict_image "tile.tif" true true loaded) = Ok (VArray (Image 400 400))
  /\ windows (world (ext (snd (predict_image "tile.tif" true true loaded)))) = 1
  /\ windows (world (ext (snd (predict_image "tile.tif" true false loaded)))) = 0.
Proof. repeat split. Qed.

(** ** The theorems at the sample sessions *)

(** C1 at [fresh]: built without a path, trained, and still refused. *)
Lemma predict_image_refuses_trained_session_witness :
  saved_model (self fresh) = None /\
  train "annotations.csv" "fit_generator" None None None fresh
  = (Ok VNone, trained) /\
  (exists m, model (self trained) = Some m) /\
  predict_image "tile.tif" true false trained
  = (Raise (ValueError no_weights_msg), trained).
Proof.
  split; [reflexivity|]. split; [reflexivity|].
  apply (predict_image_refuses_trained_session fresh
           "annotations.csv" "fit_generator" None None None VNone trained
           "tile.tif" true false); reflexivity.
Defined.

(** C2 at [start]: construct without a path, train, try to predict, and the
    next prediction is refused as well. *)
Lemma predict_image_without_saved_model_fails_witness :
  __init__ None start = (Ok (self fresh), ext fresh) /\
  (predict_image "tile.tif" false true
     (run_ops [OpTrain "annotations.csv" "fit_generator" None None None;
               OpPredictImage "tile.tif" true true]
        {| self := self fresh; ext := ext fresh |})
   = (Raise (ValueError no_weights_msg),
      run_ops [OpTrain "annotations.csv" "fit_generator" None None None;
               OpPredictImage "tile.tif" true true]
        {| self := self fresh; ext := ext fresh |}) /\
   mentions "train a new model using deepforest.train" no_weights_msg = true /\
   mentions "loading existing model" no_weights_msg = true /\
   mentions "use prebuilt model (see deepforest.use_release()" no_weights_msg
   = true).
Proof.
  split; [reflexivity|].
  apply (predict_image_without_saved_model_fails start (self fresh) (ext fresh)
           [OpTrain "annotations.csv" "fit_generator" None None None;
            OpPredictImage "tile.tif" true true]
           "tile.tif" false true); reflexivity.
Defined.

(** C3 at [fresh]: the call completes and returns [None]. *)
Lemma train_returns_none_witness :
  train "annotations.csv" "fit_generator" None None None fresh
  = (Ok VNone, trained) /\
  VNone = VNone /\
  exists m pm tm,
    model (self trained) = Some m /\
    prediction_model (self trained) = Some pm /\
    training_model (self trained) = Some tm /\
    VNone <> VTuple3 (VModel m) (VModel pm) (VModel tm).
Proof.
  split; [reflexivity|].
  apply (train_returns_none fresh "annotations.csv" "fit_generator"
           None None None VNone trained); reflexivity.
Defined.

(** C4 at [fresh]: the release is fetched and loaded. *)
Lemma use_release_enables_predict_image_witness :
  use_release fresh = (Ok VNone, released) /\
  saved_model (self released) = Some "data/NEON.h5" /\
  model (self released) = Some "model:data/NEON.h5" /\
  fst (predict_image "tile.tif" true false released)
  = Ok (VArray (Image 400 400)) /\
  exists p w1 m w2,
    utilities_use_release (world (ext fresh)) = (Ok p, w1) /\
    utilities_read_model p (config (self fresh)) w1 = (Ok m, w2) /\
    saved_model (self released) = Some p /\
    model (self released) = Some m /\
    forall image_path return_plot show,
      (forall msg,
          fst (predict_image image_path return_plot show released)
          <> Raise (ValueError msg)) /\
      exists later,
        trace (ext (snd (predict_image image_path return_plot show released)))
        = trace (ext released) ++ CConvertModel (Some m) :: later.
Proof.
  repeat (split; [reflexivity|]).
  apply (use_release_enables_predict_image fresh VNone released);
    reflexivity.
Defined.

(** The constructor at a saved model: the session can predict. *)
Lemma constructed_with_path_can_predict_witness :
  __init__ (Some "weights.h5") start = (Ok (self loaded), ext loaded) /\
  saved_model (self loaded) = Some "weights.h5" /\
  (exists w1 m w2,
      utilities_read_config (world start) = (Ok (config (self loaded)), w1) /\
      utilities_read_model "weights.h5" (config (self loaded)) w1
      = (Ok m, w2) /\
      model (self loaded) = Some m) /\
  (forall msg,
      fst (predict_image "tile.tif" true false
             {| self := self loaded; ext := ext loaded |})
      <> Raise (ValueError msg)).
Proof.
  split; [reflexivity|].
  apply (constructed_with_path_can_predict start "weights.h5" (self loaded)
           (ext loaded) "tile.tif" true false); reflexivity.
Defined.

(** C6 at [trained]: the trained model converts, the prediction on the tile
    would return the plot and the boxes, and [predict_image] returns neither. *)
Lemma predict_image_withholds_result_on_trained_session_witness :
  saved_model (self fresh) = None /\
  train "annotations.csv" "fit_generator" None None None fresh
  = (Ok VNone, trained) /\
  convert_model (model (self trained)) (world (ext trained))
  = (Ok "trained+nms", world (ext trained)) /\
  predict_predict_image (Some "trained+nms") "tile.tif" true
    (world (ext trained)) = (Ok (Image 400 400), world (ext trained)) /\
  predict_predict_image (Some "trained+nms") "tile.tif" false
    (world (ext trained)) = (Ok (Boxes 3), world (ext trained)) /\
  ((exists m, model (self trained) = Some m) /\
   predict_image "tile.tif" true false trained
   = (Raise (ValueError no_weights_msg), trained) /\
   fst (predict_image "tile.tif" true false trained)
   <> Ok (VArray (Image 400 400))) /\
  ((exists m, model (self trained) = Some m) /\
   predict_image "tile.tif" false false trained
   = (Raise (ValueError no_weights_msg), trained) /\
   fst (predict_image "tile.tif" false false trained)
   <> Ok (VArray (Boxes 3))).
Proof.
  repeat (split; [reflexivity|]).
  split.
  - apply (predict_image_withholds_result_on_trained_session fresh
             "annotations.csv" "fit_generator" None None None VNone trained
             "trained+nms" (world (ext trained)) (Image 400 400)
             (world (ext trained)) "tile.tif" true false); reflexivity.
  - apply (predict_image_withholds_result_on_trained_session fresh
             "annotations.csv" "fit_generator" None None None VNone trained
             "trained+nms" (world (ext trained)) (Boxes 3)
             (world (ext trained)) "tile.tif" false false); reflexivity.
Defined.

(** The value returned at [loaded], in plot mode with the display and in raw
    mode. *)
Lemma predict_image_returns_predicted_array_witness :
  (exists sp pm w1 a w2 e3,
      saved_model (self loaded) = Some sp /\
      convert_model (model (self loaded)) (world (ext loaded)) = (Ok pm, w1) /\
      predict_predict_image (Some pm) "tile.tif" true w1 = (Ok a, w2) /\
      show_image a
        {| world := w2;
           trace := trace (ext loaded) ++
                    [CConvertModel (model (self loaded));
                     CPredictImage (Some pm) "tile.tif" true] |}
      = (Ok tt, e3) /\
      VArray (C := collaborators) (Image 400 400) = VArray a /\
      snd (predict_image "tile.tif" true true loaded)
      = {| self := set_prediction_model (Some pm) (self loaded);
           ext := e3 |}) /\
  (exists sp pm w1 a w2 e3,
      saved_model (self loaded) = Some sp /\
      convert_model (model (self loaded)) (world (ext loaded)) = (Ok pm, w1) /\
      predict_predict_image (Some pm) "tile.tif" false w1 = (Ok a, w2) /\
      ret (X := exn string) tt
        {| world := w2;
           trace := trace (ext loaded) ++
                    [CConvertModel (model (self loaded));
                     CPredictImage (Some pm) "tile.tif" false] |}
      = (Ok tt, e3) /\
      VArray (C := collaborators) (Boxes 3) = VArray a /\
      snd (predict_image "tile.tif" false false loaded)
      = {| self := set_prediction_model (Some pm) (self loaded);
           ext := e3 |}).
Proof.
  split.
  - apply (proj1 (predict_image_returns_predicted_array loaded "tile.tif"
                    true true (VArray (C := collaborators) (Image 400 400))
                    (snd (predict_image "tile.tif" true true loaded)))).
    reflexivity.
  - apply (proj1 (predict_image_returns_predicted_array loaded "tile.tif"
                    false false (VArray (C := collaborators) (Boxes 3))
                    (snd (predict_image "tile.tif" false false loaded)))).
    reflexivity.
Defined.

(** C7 at [loaded]: the loaded model gives way to the trained one. *)
Lemma train_overwrites_model_references_witness :
  model (self loaded) = Some "model:weights.h5" /\
  exists v st',
    train "annotations.csv" "tfrecord" (Some ["shard-0"; "shard-1"]) None
      (Some 5) loaded = (Ok v, st') /\
    model (self st') = Some "trained" /\
    prediction_model (self st') = Some "trained+nms" /\
    training_model (self st') = Some "trained-nms" /\
    saved_model (self st') = saved_model (self loaded) /\
    config (self st') = config (self loaded).
Proof.
  split; [reflexivity|].
  apply (train_overwrites_model_references loaded "annotations.csv" "tfrecord"
           (Some ["shard-0"; "shard-1"]) None (Some 5)
           ["--config"; "deepforest_config.yml"; "csv"; "annotations.csv"]
           (world (ext loaded)) (world (ext loaded))
           "trained" "trained+nms" "trained-nms" (world (ext loaded)));
    reflexivity.
Defined.

(** C8 at [loaded]: two predictions in a row, two conversions. *)
Lemma predict_image_reconverts_every_call_witness :
  saved_model (self loaded) = Some "weights.h5" /\
  prediction_model (self (snd (predict_image "tile.tif" true false loaded)))
  = Some "model:weights.h5+nms" /\
  model (self (snd (predict_image "tile.tif" true false loaded)))
  = model (self loaded) /\
  length (filter
            (fun c => match c with CConvertModel _ => true | _ => false end)
            (trace (ext (run_ops [OpPredictImage "tile.tif" true false;
                                  OpPredictImage "tile.tif" false false]
                           loaded)))) = 2.
Proof.
  split; [reflexivity|].
  pose proof (predict_image_reconverts_every_call loaded "weights.h5"
                "tile.tif" true false eq_refl) as H.
  cbn in H. destruct H as (Hmodel & _ & _ & _ & _ & Hpm).
  split; [exact Hpm|]. split; [exact Hmodel|]. reflexivity.
Defined.

(** C9 at [start]: one read at construction, none in what follows. *)
Lemma config_read_once_and_kept_witness :
  __init__ (Some "weights.h5") start = (Ok (self loaded), ext loaded) /\
  (exists w1,
      utilities_read_config (world start) = (Ok (config (self loaded)), w1)) /\
  config_reads (trace (ext loaded)) = S (config_reads (trace start)) /\
  config (self
            (run_ops [OpTrain "annotations.csv" "fit_generator" None None None;
                      OpUseRelease;
                      OpPredictImage "tile.tif" true true]
               {| self := self loaded; ext := ext loaded |}))
  = config (self loaded) /\
  config_reads
    (trace (ext
              (run_ops [OpTrain "annotations.csv" "fit_generator" None None
                          None;
                        OpUseRelease;
                        OpPredictImage "tile.tif" true true]
                 {| self := self loaded; ext := ext loaded |})))
  = config_reads (trace (ext loaded)).
Proof.
  split; [reflexivity|].
  apply (config_read_once_and_kept (Some "weights.h5") start (self loaded)
           (ext loaded)
           [OpTrain "annotations.csv" "fit_generator" None None None;
            OpUseRelease;
            OpPredictImage "tile.tif" true true]); reflexivity.
Defined.

(** C10 at [fresh]: the refused call changed nothing. *)
Lemma predict_image_invalid_state_changes_nothing_witness :
  predict_image "tile.tif" true true fresh
  = (Raise (ValueError no_weights_msg), fresh) /\
  fresh = fresh /\
  trace (ext fresh) = trace (ext fresh) /\
  no_weights_msg = no_weights_msg /\
  saved_model (self fresh) = None.
Proof.
  split; [reflexivity|].
  apply (predict_image_invalid_state_changes_nothing fresh "tile.tif" true true
           no_weights_msg fresh); reflexivity.
Defined.

End DemoFacts.

(** * Failure paths, invariants and composition on the concrete collaborators *)

Module DemoBehaviour.

Import Demo.

(** Training that runs out of memory leaves the session as it was. *)
Lemma train_raises_leaves_session_witness :
  train "annotations.csv" "fit_generator" None None None fresh_unreliable
  = (Raise (Delegated "ResourceExhaustedError"),
     snd (train "annotations.csv" "fit_generator" None None None
            fresh_unreliable)) /\
  self (snd (train "annotations.csv" "fit_generator" None None None
               fresh_unreliable))
  = self fresh_unreliable.
Proof.
  split; [reflexivity|].
  apply (train_raises_leaves_session fresh_unreliable
           "annotations.csv" "fit_generator" None None None
           (Delegated "ResourceExhaustedError")
           (snd (train "annotations.csv" "fit_generator" None None None
                   fresh_unreliable))).
  reflexivity.
Defined.

(** A release whose file does not load: the path is stored, the model is
    not. *)
Lemma use_release_raises_cases_witness :
  use_release fresh_unreliable = (Raise (Delegated "OSError"), half_released) /\
  saved_model (self half_released) = Some "data/NEON.h5" /\
  model (self half_released) = None /\
  exists err, Delegated "OSError" = Delegated err /\
    ((exists w1,
         utilities_use_release (world (ext fresh_unreliable))
         = (Raise err, w1) /\
         self half_released = self fresh_unreliable) \/
     (exists p w1 w2,
         utilities_use_release (world (ext fresh_unreliable)) = (Ok p, w1) /\
         utilities_read_model p (config (self fresh_unreliable)) w1
         = (Raise err, w2) /\
         self half_released
         = set_saved_model (Some p) (self fresh_unreliable))).
Proof.
  repeat (split; [reflexivity|]).
  apply (use_release_raises_cases fresh_unreliable (Delegated "OSError")
           half_released).
  reflexivity.
Defined.

(** On that session the guard lets [predict_image] through, and the
    conversion is called on [None]. *)
Lemma use_release_failed_load_opens_guard_witness :
  exists st',
    use_release fresh_unreliable = (Raise (Delegated "OSError"), st') /\
    saved_model (self st') = Some "data/NEON.h5" /\
    model (self st') = model (self fresh_unreliable) /\
    (forall msg,
        fst (predict_image "tile.tif" true false st')
        <> Raise (ValueError msg)) /\
    exists later,
      trace (ext (snd (predict_image "tile.tif" true false st')))
      = trace (ext st') ++ CConvertModel (model (self fresh_unreliable))
                        :: later.
Proof.
  apply (use_release_failed_load_opens_guard fresh_unreliable "data/NEON.h5"
           (world (ext fresh_unreliable)) "OSError"
           (world (ext fresh_unreliable)) "tile.tif" true false);
    reflexivity.
Defined.

(** A constructor given a path that does not load. *)
Lemma init_raises_cases_witness :
  __init__ (Some "") start = (Raise (Delegated "OSError"), after_failed_load) /\
  exists err, Delegated "OSError" = Delegated err /\
    ((exists w1,
         utilities_read_config (world start) = (Raise err, w1) /\
         after_failed_load
         = {| world := w1; trace := trace start ++ [CReadConfig] |}) \/
     (exists p cfg w1 w2,
         Some "" = Some p /\
         utilities_read_config (world start) = (Ok cfg, w1) /\
         utilities_read_model p cfg w1 = (Raise err, w2) /\
         after_failed_load
         = {| world := w2;
              trace := trace start ++ [CReadConfig; CReadModel p cfg] |})).
Proof.
  split; [reflexivity|].
  apply (init_raises_cases (Some "") start (Delegated "OSError")
           after_failed_load).
  reflexivity.
Defined.

(** A loaded session stays past the guard through training, a release and a
    prediction. *)
Lemma guard_stays_open_witness :
  saved_model (self loaded) = Some "weights.h5" /\
  (exists sp',
      saved_model
        (self (run_ops
                 [OpTrain "annotations.csv" "fit_generator" None None None;
                  OpUseRelease;
                  OpPredictImage "missing.tif" true true]
                 loaded)) = Some sp') /\
  (forall msg,
      fst (predict_image "tile.tif" true false
             (run_ops
                [OpTrain "annotations.csv" "fit_generator" None None None;
                 OpUseRelease;
                 OpPredictImage "missing.tif" true true]
                loaded))
      <> Raise (ValueError msg)).
Proof.
  split; [reflexivity|].
  apply (guard_stays_open loaded "weights.h5"
           [OpTrain "annotations.csv" "fit_generator" None None None;
            OpUseRelease;
            OpPredictImage "missing.tif" true true]
           "tile.tif" true false).
  reflexivity.
Defined.

(** After training and a release, the session that holds a training model
    holds the other two. *)
Lemma training_model_comes_with_the_others_witness :
  __init__ None start = (Ok (self fresh), ext fresh) /\
  is_set (training_model
            (self (run_ops
                     [OpTrain "annotations.csv" "fit_generator" None None None;
                      OpUseRelease]
                     {| self := self fresh; ext := ext fresh |}))) = true /\
  is_set (model
            (self (run_ops
                     [OpTrain "annotations.csv" "fit_generator" None None None;
                      OpUseRelease]
                     {| self := self fresh; ext := ext fresh |}))) = true /\
  is_set (prediction_model
            (self (run_ops
                     [OpTrain "annotations.csv" "fit_generator" None None None;
                      OpUseRelease]
                     {| self := self fresh; ext := ext fresh |}))) = true.
Proof.
  split; [reflexivity|]. split; [reflexivity|].
  apply (training_model_comes_with_the_others None start (self fresh)
           (ext fresh)
           [OpTrain "annotations.csv" "fit_generator" None None None;
            OpUseRelease]); reflexivity.
Defined.

(** A loaded session, trained: inference converts the trained model. *)
Lemma predict_image_after_train_converts_trained_model_witness :
  saved_model (self loaded) = Some "weights.h5" /\
  model (self loaded) = Some "model:weights.h5" /\
  exists arg_list w2 m pm tm,
    retinanet_train arg_list "fit_generator" None None w2
    = (Ok (m, pm, tm),
       world (ext (snd (train "annotations.csv" "fit_generator" None None
                          None loaded)))) /\
    model (self (snd (train "annotations.csv" "fit_generator" None None None
                        loaded))) = Some m /\
    prediction_model
      (self (snd (train "annotations.csv" "fit_generator" None None None
                    loaded))) = Some pm /\
    (exists later,
        trace (ext (snd (predict_image "tile.tif" true false
                           (snd (train "annotations.csv" "fit_generator" None
                                   None None loaded)))))
        = trace (ext (snd (train "annotations.csv" "fit_generator" None None
                             None loaded)))
          ++ CConvertModel (Some m) :: later) /\
    (forall pm' w',
        convert_model (Some m)
          (world (ext (snd (train "annotations.csv" "fit_generator" None None
                              None loaded))))
        = (Ok pm', w') ->
        prediction_model
          (self (snd (predict_image "tile.tif" true false
                        (snd (train "annotations.csv" "fit_generator" None
                                None None loaded)))))
        = Some pm').
Proof.
  split; [reflexivity|]. split; [reflexivity|].
  apply (predict_image_after_train_converts_trained_model loaded "weights.h5"
           "annotations.csv" "fit_generator" None None None VNone
           (snd (train "annotations.csv" "fit_generator" None None None
                   loaded))
           "tile.tif" true false); reflexivity.
Defined.

(** Asking for boxes with [show=True]: nothing is displayed. *)
Lemma predict_image_displays_only_on_request_witness :
  fst (predict_image "tile.tif" false true loaded) = Ok (VArray (Boxes 3)) /\
  display_calls
    (trace (ext (snd (predict_image "tile.tif" false true loaded))))
  = display_calls (trace (ext loaded)).
Proof.
  split; [reflexivity|].
  apply (predict_image_displays_only_on_request loaded "tile.tif" false true).
  reflexivity.
Defined.

(** Asking for the plot with [show=True]: the plot is returned, its reversed
    view is displayed, one window opens. *)
Lemma predict_image_shows_reversed_channels_witness :
  predict_image "tile.tif" true true loaded
  = (Ok (VArray (Image 400 400)),
     snd (predict_image "tile.tif" true true loaded)) /\
  exists pm w1 a w2 view w3 w4,
    convert_model (model (self loaded)) (world (ext loaded)) = (Ok pm, w1) /\
    predict_predict_image (Some pm) "tile.tif" true w1 = (Ok a, w2) /\
    VArray (C := collaborators) (Image 400 400) = VArray a /\
    reverse_channels a = Ok view /\
    plt_imshow view w2 = (Ok tt, w3) /\
    plt_show w3 = (Ok tt, w4) /\
    world (ext (snd (predict_image "tile.tif" true true loaded))) = w4 /\
    trace (ext (snd (predict_image "tile.tif" true true loaded)))
    = trace (ext loaded) ++
      [CConvertModel (model (self loaded));
       CPredictImage (Some pm) "tile.tif" true;
       CImshow view; CShow] /\
    display_calls
      (trace (ext (snd (predict_image "tile.tif" true true loaded))))
    = display_calls (trace (ext loaded)) ++ [CImshow view; CShow].
Proof.
  split; [reflexivity|].
  apply (predict_image_shows_reversed_channels loaded "tile.tif"
           (VArray (C := collaborators) (Image 400 400))
           (snd (predict_image "tile.tif" true true loaded))).
  reflexivity.
Defined.

End DemoBehaviour.
